(** * libnmea: sentence classification and dispatch

    A shallow embedding of [src/lib/libnmea.c]: the prefix table
    [type_map], the classifier [nmea_get_message_type] and the dispatcher
    [nmea_parse_message], over an explicit heap.

    The C functions work on pointers, so the embedding threads a heap of
    typed cells through a small state-and-outcome monad.  A call ends in
    one of three ways: it returns a value, it stops in [abort()] because an
    [assert] failed, or it leaves defined behaviour (a read past the end of
    an array, a write through a null or dangling pointer, ...). *)

From Stdlib Require Import Strings.Byte.
From stdpp Require Import gmap strings list fin_maps.

Local Open Scope Z_scope.

(** ** Characters and C strings *)

(** The terminating character of a C string. *)
Definition NUL : byte := x00.

(** A string literal denotes the array of its characters followed by NUL. *)
Definition literal (s : string) : list byte :=
  String.list_byte_of_string s ++ [NUL].

(** [strlen] on the contents of a character array: the number of
    characters before the first NUL; [None] when the array holds no NUL,
    where the C function would read past its end. *)
Fixpoint strlen_arr (a : list byte) : option nat :=
  match a with
  | [] => None
  | c :: r => if Byte.eqb c NUL then Some O else S <$> strlen_arr r
  end.

(** [strncmp s1 s2 n] on array contents.  At most [n] characters are
    compared, as unsigned chars; the comparison stops at the first
    difference or after a NUL common to both.  [None] when an array ends
    before the comparison does. *)
Fixpoint strncmp_arr (s1 s2 : list byte) (n : nat) : option Z :=
  match n with
  | O => Some 0
  | S n' =>
      match s1, s2 with
      | c1 :: r1, c2 :: r2 =>
          if Byte.eqb c1 c2
          then if Byte.eqb c1 NUL then Some 0 else strncmp_arr r1 r2 n'
          else Some (Z.of_N (Byte.to_N c1) - Z.of_N (Byte.to_N c2))
      | _, _ => None
      end
  end.

(** The [n] characters [strncpy dst src n] writes: the characters of
    [src] up to its NUL, then NUL padding up to [n]; exactly [n]
    characters of [src] when it has no NUL among them.  [None] when [src]
    ends before that. *)
Fixpoint strncpy_arr (src : list byte) (n : nat) : option (list byte) :=
  match n with
  | O => Some []
  | S n' =>
      match src with
      | [] => None
      | c :: r =>
          if Byte.eqb c NUL then Some (replicate (S n') NUL)
          else (c ::.) <$> strncpy_arr r n'
      end
  end.

(** The characters of the C string held in an array: those before its
    first NUL. *)
Fixpoint c_string (a : list byte) : list byte :=
  match a with
  | [] => []
  | c :: r => if Byte.eqb c NUL then [] else c :: c_string r
  end.

Global Instance byte_eq_dec : EqDecision byte := Byte.byte_eq_dec.

(** ** Integers *)

(** [int] is taken to be 32 bits wide. *)
Definition INT_MAX : Z := 2 ^ 31 - 1.

(** ** Message types *)

(** Modelled from the spec: the enum [nmea_message_type_t] is declared in
    libnmea.h, of which libnmea.c only has the include.  The spec gives the
    closed set {GGA, GSA, GSV, VTG, Unknown}; the constructors carry the
    names libnmea.c uses for them. *)
Inductive nmea_message_type_t : Set :=
  | kNMEAMessageUnknown
  | kNMEAMessageGGA
  | kNMEAMessageGSA
  | kNMEAMessageGSV
  | kNMEAMessageVTG.

(** ** The type map (libnmea.c, lines 29-38) *)

(** One entry of [type_map]: the [nmea] literal ([None] for the NULL of the
    sentinel) and the type it stands for. *)
Record type_map_entry : Set := TypeMapEntry {
  nmea : option string;
  type : nmea_message_type_t
}.

Definition type_map : list type_map_entry :=
  [ TypeMapEntry (Some "$GPGGA") kNMEAMessageGGA;
    TypeMapEntry (Some "$GPGSA") kNMEAMessageGSA;
    TypeMapEntry (Some "$GPGSV") kNMEAMessageGSV;
    TypeMapEntry (Some "$GPVTF") kNMEAMessageVTG;
    TypeMapEntry None kNMEAMessageUnknown ].

(** Heap blocks.  A pointer is a block or NULL. *)
Definition block : Set := positive.
Definition ptr : Set := option block.
Definition NULL : ptr := None.

(** How a call ends. *)
Inductive result (A : Type) : Type :=
  | Ok (a : A)      (* normal return *)
  | Abort           (* a failed assertion called abort() *)
  | Undef.          (* undefined behaviour *)
Global Arguments Ok {A} a.
Global Arguments Abort {A}.
Global Arguments Undef {A}.

Section Libnmea.

(** libnmea.h also declares the error codes and the message structs.  The
    type of error codes, the one code the dispatcher writes itself, and
    what follows the [type] field in a message struct are parameters. *)
Variable nmea_error_t : Type.
Variable kNMEAErrorTypeNotUnderstood : nmea_error_t.
Variable payload : Type.

(** Modelled from the spec: the struct [nmea_message_t] of libnmea.h.
    Every variant of a message record starts with the type tag, which is
    what the casts to [nmea_message_t *] and the write [parsed->type = t]
    rely on; the fields after it belong to the decoders. *)
Record nmea_message_t : Type := NmeaMessage {
  msg_type : nmea_message_type_t;
  msg_payload : payload
}.

(** ** The heap *)

Inductive cell : Type :=
  | Chars (a : list byte)         (* a character array *)
  | ErrCell (e : nmea_error_t)    (* an nmea_error_t object *)
  | Msg (m : nmea_message_t).     (* a message struct *)

Abbreviation heap := (gmap block cell).

(** What a pointer points to, if anything. *)
Definition deref (h : heap) (p : ptr) : option cell :=
  match p with
  | Some b => h !! b
  | None => None
  end.

Definition M (A : Type) : Type := heap → result A * heap.

Global Instance M_ret : MRet M := λ A a h, (Ok a, h).

Global Instance M_bind : MBind M := λ A B f m h,
  match m h with
  | (Ok a, h') => f a h'
  | (Abort, h') => (Abort, h')
  | (Undef, h') => (Undef, h')
  end.

Definition undef {A} : M A := λ h, (Undef, h).
Definition abort {A} : M A := λ h, (Abort, h).

(** Reading and writing through typed pointers.  An access through NULL,
    through a pointer to no live block or to a cell of another type is
    undefined. *)
Definition load_chars (p : ptr) : M (list byte) := λ h,
  match p with
  | Some b =>
      match h !! b with
      | Some (Chars a) => (Ok a, h)
      | _ => (Undef, h)
      end
  | None => (Undef, h)
  end.

Definition store_chars (p : ptr) (a : list byte) : M unit := λ h,
  match p with
  | Some b =>
      match h !! b with
      | Some (Chars _) => (Ok tt, <[b := Chars a]> h)
      | _ => (Undef, h)
      end
  | None => (Undef, h)
  end.

(** [*p = e] for [p : nmea_error_t *]. *)
Definition store_err (p : ptr) (e : nmea_error_t) : M unit := λ h,
  match p with
  | Some b =>
      match h !! b with
      | Some (ErrCell _) => (Ok tt, <[b := ErrCell e]> h)
      | _ => (Undef, h)
      end
  | None => (Undef, h)
  end.

(** [p->type = t] for [p : nmea_message_t *]. *)
Definition store_type (p : ptr) (t : nmea_message_type_t) : M unit := λ h,
  match p with
  | Some b =>
      match h !! b with
      | Some (Msg m) => (Ok tt, <[b := Msg (NmeaMessage t (msg_payload m))]> h)
      | _ => (Undef, h)
      end
  | None => (Undef, h)
  end.

(** ** The C library *)

(** [malloc n] for a character array: a block that is not in use.  The
    contents are indeterminate in C; they are NULs here.  Allocation
    always succeeds. *)
Definition malloc (n : nat) : M ptr := λ h,
  let b := fresh (dom h) in (Ok (Some b), <[b := Chars (replicate n NUL)]> h).

(** [free(p)]; nothing happens for NULL, and freeing what is not live is
    undefined. *)
Definition free (p : ptr) : M unit := λ h,
  match p with
  | Some b =>
      match h !! b with
      | Some _ => (Ok tt, delete b h)
      | None => (Undef, h)
      end
  | None => (Ok tt, h)
  end.

Definition strlen (p : ptr) : M nat :=
  a ← load_chars p;
  match strlen_arr a with
  | Some n => mret n
  | None => undef
  end.

(** [strncmp(p, lit, n)] against a string literal. *)
Definition strncmp (p : ptr) (lit : string) (n : nat) : M Z :=
  a ← load_chars p;
  match strncmp_arr a (literal lit) n with
  | Some c => mret c
  | None => undef
  end.

Definition strncpy (dst src : ptr) (n : nat) : M unit :=
  s ← load_chars src;
  d ← load_chars dst;
  match strncpy_arr s n with
  | Some w =>
      if (n <=? length d)%nat then store_chars dst (w ++ drop n d) else undef
  | None => undef
  end.

(** [assert(e)]: nothing when NDEBUG is defined, else [abort()] when [e]
    is false.  The source does not define NDEBUG; the build may. *)
Variable NDEBUG : bool.

Definition assert (e : bool) : M unit :=
  if NDEBUG then mret tt else if e then mret tt else abort.

(** The conversion of a [size_t] to [int], and [int] addition.  A value
    that does not fit (implementation-defined for the conversion, overflow
    for the sum) is not followed further. *)
Definition int_of_size_t (n : nat) : M Z :=
  if Z.of_nat n <=? INT_MAX then mret (Z.of_nat n) else undef.

Definition int_add (x y : Z) : M Z :=
  if x + y <=? INT_MAX then mret (x + y) else undef.

(** A pointer used as a condition. *)
Definition non_null (p : ptr) : bool :=
  match p with Some _ => true | None => false end.

(** ** nmea_get_message_type (libnmea.c, lines 46-64) *)

(** The do-while loop over [type_map], from entry [i] on; [entries] is
    what is left of the table.  Running off the end of the table would be
    a read past the array. *)
Fixpoint get_message_type_loop (entries : list type_map_entry) (message : ptr)
  : M nmea_message_type_t :=
  match entries with
  | [] => undef
  | e :: rest =>
      match nmea e with
      | None => mret kNMEAMessageUnknown
      | Some lit =>
          c ← strncmp message lit 6;
          if c =? 0 then mret (type e)
          else get_message_type_loop rest message
      end
  end.

Definition nmea_get_message_type (message : ptr) : M nmea_message_type_t :=
  assert (non_null message);;
  get_message_type_loop type_map message.

(** ** nmea_parse_message (libnmea.c, lines 74-122) *)

(** The private parsing functions [parse_gga], [parse_gsa], [parse_gsv]
    and [parse_vtg] are declared [extern] and defined elsewhere: each takes
    the copy of the message and the error pointer, may do to the heap what
    it likes, and returns a pointer to a message struct or NULL. *)
Definition decoder : Type := ptr → ptr → M ptr.

Variables parse_gga parse_gsa parse_gsv parse_vtg : decoder.

(** The switch statement of [nmea_parse_message] (lines 88-110): what it
    leaves in [parsed].  The default case is the only one for
    [kNMEAMessageUnknown]. *)
Definition parse_switch (t : nmea_message_type_t) (copy outError : ptr) : M ptr :=
  match t with
  | kNMEAMessageGGA => parse_gga copy outError
  | kNMEAMessageGSA => parse_gsa copy outError
  | kNMEAMessageGSV => parse_gsv copy outError
  | kNMEAMessageVTG => parse_vtg copy outError
  | _ =>
      (if non_null outError
       then store_err outError kNMEAErrorTypeNotUnderstood
       else mret tt);;
      mret NULL
  end.

(** The function itself.  [len + 2] is the size of the allocation and the
    count given to [strncpy]; the source classifies the caller's
    [message], not the copy. *)
Definition nmea_parse_message (message : ptr) (outError : ptr) : M ptr :=
  assert (non_null message);;
  n ← strlen message;
  len ← int_of_size_t n;
  sz ← int_add len 2;
  copy ← malloc (Z.to_nat sz);
  strncpy copy message (Z.to_nat sz);;
  t ← nmea_get_message_type message;
  parsed ← parse_switch t copy outError;
  assert (non_null parsed);;
  free copy;;
  store_type parsed t;;
  mret parsed.

(** ** Sample callers and decoders *)

(** A caller's heap: the sentence [s] in block 1, an error object holding
    [e0] in block 2. *)
Definition caller_heap (s : string) (e0 : nmea_error_t) : heap :=
  {[ 1%positive := Chars (literal s); 2%positive := ErrCell e0 ]}.

(** Splitting the fields of a sentence in place, as [strtok] does. *)
Definition split_fields (a : list byte) : list byte :=
  (λ c, if Byte.eqb c "," then NUL else c) <$> a.

(** Allocating a message struct with the given contents. *)
Definition new_message (m : nmea_message_t) : M ptr := λ h,
  let b := fresh (dom h) in (Ok (Some b), <[b := Msg m]> h).

(** A decoder that splits its copy of the message in place and returns a
    new message struct with payload [pl], its [type] not filled in. *)
Definition accepting_decoder (pl : payload) : decoder := λ msg outErr,
  a ← load_chars msg;
  store_chars msg (split_fields a);;
  new_message (NmeaMessage kNMEAMessageUnknown pl).

(** A decoder that reports the error [e] and returns no message. *)
Definition rejecting_decoder (e : nmea_error_t) : decoder := λ msg outErr,
  (if non_null outErr then store_err outErr e else mret tt);;
  mret NULL.

(** ** The registry read as a lookup table *)

(** The tag of the first entry whose literal is [p], [Unknown] at the
    sentinel; what the loop of [nmea_get_message_type] is compared with. *)
Fixpoint lookup_prefix (entries : list type_map_entry) (p : list byte)
  : option nmea_message_type_t :=
  match entries with
  | [] => None
  | e :: rest =>
      match nmea e with
      | None => Some kNMEAMessageUnknown
      | Some lit =>
          if decide (p = String.list_byte_of_string lit) then Some (type e)
          else lookup_prefix rest p
      end
  end.

(** An entry whose literal has six characters, none of them NUL. *)
Definition entry_ok (e : type_map_entry) : Prop :=
  ∀ lit, nmea e = Some lit →
    length (String.list_byte_of_string lit) = 6%nat
    ∧ NUL ∉ String.list_byte_of_string lit.

(** ** The dispatcher after its first steps *)

(** The contents of the copy [nmea_parse_message] makes of a sentence of
    [len] characters: [strncpy] fills the [len + 2] characters of the new
    array with the sentence and two NULs. *)
Definition scratch (a : list byte) : cell := Chars (c_string a ++ [NUL; NUL]).

(** What [nmea_parse_message] does once the switch has set [parsed]. *)
Definition after_switch (t : nmea_message_type_t) (copy parsed : ptr) : M ptr :=
  assert (non_null parsed);;
  free copy;;
  store_type parsed t;;
  mret parsed.

(** ** Footprints *)

(** A computation that leaves the heap as it found it. *)
Definition pure {A} (m : M A) : Prop := ∀ h, (m h).2 = h.

(** A computation that leaves the cell [c] in block [b]. *)
Definition keeps (b : block) (c : cell) {A} (m : M A) : Prop :=
  ∀ h, h !! b = Some c → (m h).2 !! b = Some c.

(** What the dispatcher expects of a decoder: of the character arrays
    that are live when it is called, it writes to none but the one it is
    handed. *)
Definition decoder_frame (d : decoder) : Prop :=
  ∀ msg outErr b a, msg ≠ Some b → keeps b (Chars a) (d msg outErr).

(** ** C strings *)

Lemma eqb_NUL_false c : c ≠ NUL → Byte.eqb c NUL = false.
Proof.
  intros Hc. destruct (Byte.eqb c NUL) eqn:E; [|done].
  by apply Byte.byte_dec_bl in E.
Qed.

Lemma to_N_inj c1 c2 : Byte.to_N c1 = Byte.to_N c2 → c1 = c2.
Proof.
  intros H. apply (inj Some).
  by rewrite <-(Byte.of_to_N c1), <-(Byte.of_to_N c2), H.
Qed.

(** [strncmp] against a NUL-free string of the length compared: the
    result is 0 exactly when the string starts the sentence. *)
Lemma strncmp_arr_spec p : ∀ a,
  NUL ∉ p →
  (length p ≤ length (c_string a))%nat ∨ is_Some (strlen_arr a) →
  ∃ c, strncmp_arr a (p ++ [NUL]) (length p) = Some c
       ∧ (c = 0 ↔ take (length p) (c_string a) = p).
Proof.
  induction p as [|x p IH]; intros a Hp Ha; simpl.
  { exists 0. destruct a; simpl; by repeat split. }
  apply not_elem_of_cons in Hp as [Hx Hp].
  destruct a as [|c r]; simpl in *.
  { destruct Ha as [Ha|[? Ha]]; [lia|done]. }
  destruct (Byte.eqb c x) eqn:Ecx.
  - apply Byte.byte_dec_bl in Ecx as ->.
    rewrite eqb_NUL_false in * by done. simpl in *.
    destruct (IH r Hp) as (k & -> & Hk).
    { destruct Ha as [Ha|[n Ha]]; [left; lia|right].
      destruct (strlen_arr r); [eauto|done]. }
    exists k. split; [done|]. rewrite Hk. split; [by intros ->|by intros [= ?]].
  - apply Byte.eqb_false in Ecx. eexists. split; [done|].
    split.
    + intros H0. destruct Ecx. apply to_N_inj. lia.
    + destruct (Byte.eqb c NUL); [done|]. simpl. by intros [= ? _].
Qed.

(** What [strncpy] writes for a C string and its length plus [k]. *)
Lemma strncpy_arr_c_string k : ∀ a n,
  strlen_arr a = Some n →
  strncpy_arr a (n + S k) = Some (c_string a ++ replicate (S k) NUL).
Proof.
  induction a as [|c r IH]; intros n; simpl; [done|].
  destruct (Byte.eqb c NUL) eqn:Ec.
  - by intros [= <-].
  - destruct (strlen_arr r) as [m|]; simpl; [|done].
    intros [= <-]. simpl. by rewrite (IH m eq_refl).
Qed.

(** ** Running the primitives *)

Lemma bind_run {A B} (m : M A) (f : A → M B) h :
  (m ≫= f) h =
    match m h with
    | (Ok a, h') => f a h'
    | (Abort, h') => (Abort, h')
    | (Undef, h') => (Undef, h')
    end.
Proof. done. Qed.

Lemma bind_Ok_inv {A B} (m : M A) (f : A → M B) h b h' :
  (m ≫= f) h = (Ok b, h') → ∃ a h1, m h = (Ok a, h1) ∧ f a h1 = (Ok b, h').
Proof. rewrite bind_run. destruct (m h) as [[a| |] h1]; naive_solver. Qed.

Lemma assert_true : assert true = mret tt.
Proof. unfold assert. by destruct NDEBUG. Qed.

Lemma deref_non_null h p c : deref h p = Some c → non_null p = true.
Proof. by destruct p. Qed.

Lemma load_chars_run h p a :
  deref h p = Some (Chars a) → load_chars p h = (Ok a, h).
Proof. destruct p as [b|]; simpl; [|done]. by intros ->. Qed.

Lemma load_chars_Ok_inv h p a h' :
  load_chars p h = (Ok a, h') → deref h p = Some (Chars a) ∧ h' = h.
Proof.
  destruct p as [b|]; simpl; [|done].
  destruct (h !! b) as [[]|]; naive_solver.
Qed.

Lemma strncmp_run h p a lit n :
  deref h p = Some (Chars a) →
  strncmp p lit n h =
    (match strncmp_arr a (literal lit) n with Some c => Ok c | None => Undef end, h).
Proof.
  intros Hp. unfold strncmp. rewrite bind_run, (load_chars_run _ _ _ Hp).
  by destruct (strncmp_arr a (literal lit) n).
Qed.

Lemma strlen_run h p a :
  deref h p = Some (Chars a) →
  strlen p h = (match strlen_arr a with Some n => Ok n | None => Undef end, h).
Proof.
  intros Hp. unfold strlen. rewrite bind_run, (load_chars_run _ _ _ Hp).
  by destruct (strlen_arr a).
Qed.

(** ** The classifier against the lookup table *)

Lemma type_map_ok : Forall entry_ok type_map.
Proof.
  unfold type_map.
  repeat (apply Forall_cons; split;
    [intros lit Hlit; simpl in Hlit; simplify_eq;
     split; first [done|by apply (bool_decide_unpack _)]|]).
  apply Forall_nil_2.
Qed.

Lemma get_message_type_loop_run entries h message a :
  Forall entry_ok entries →
  deref h message = Some (Chars a) →
  (6 ≤ length (c_string a))%nat ∨ is_Some (strlen_arr a) →
  get_message_type_loop entries message h =
    (match lookup_prefix entries (take 6 (c_string a)) with
     | Some t => Ok t
     | None => Undef
     end, h).
Proof.
  intros Hok Hm Ha. induction Hok as [|e rest He _ IH]; simpl; [done|].
  destruct (nmea e) as [lit|] eqn:Elit; [|done].
  destruct (He lit Elit) as [Hlen Hnul].
  rewrite bind_run, (strncmp_run _ _ _ _ _ Hm). unfold literal.
  destruct (strncmp_arr_spec _ a Hnul) as (c & Hc & Hc0); [by rewrite Hlen|].
  rewrite Hlen in Hc, Hc0. rewrite Hc.
  case_decide as Hp.
  - apply Hc0 in Hp as ->. done.
  - destruct (Z.eqb_spec c 0) as [Hz|Hz]; [by apply Hc0 in Hz|done].
Qed.

Lemma lookup_prefix_type_map p : is_Some (lookup_prefix type_map p).
Proof. simpl. repeat case_decide; eauto. Qed.

Lemma nmea_get_message_type_run h message a :
  deref h message = Some (Chars a) →
  (6 ≤ length (c_string a))%nat ∨ is_Some (strlen_arr a) →
  ∃ t, lookup_prefix type_map (take 6 (c_string a)) = Some t
       ∧ nmea_get_message_type message h = (Ok t, h).
Proof.
  intros Hm Ha. destruct (lookup_prefix_type_map (take 6 (c_string a))) as [t Ht].
  exists t. split; [done|]. unfold nmea_get_message_type.
  rewrite (deref_non_null _ _ _ Hm), assert_true.
  change (get_message_type_loop type_map message h = (Ok t, h)).
  by rewrite (get_message_type_loop_run _ _ _ _ type_map_ok Hm Ha), Ht.
Qed.

Lemma lookup_prefix_registered e lit :
  e ∈ type_map → nmea e = Some lit →
  lookup_prefix type_map (String.list_byte_of_string lit) = Some (type e).
Proof.
  unfold type_map. intros He Hlit.
  repeat (apply elem_of_cons in He as [->|He]);
    try (by apply elem_of_nil in He); simpl in Hlit; by simplify_eq.
Qed.

Lemma lookup_prefix_no_match entries p t :
  (∀ e lit, e ∈ entries → nmea e = Some lit → p ≠ String.list_byte_of_string lit) →
  lookup_prefix entries p = Some t → t = kNMEAMessageUnknown.
Proof.
  induction entries as [|e rest IH]; intros Hp; simpl; [done|].
  destruct (nmea e) as [lit|] eqn:Elit; [|congruence].
  case_decide as Heq.
  - destruct (Hp e lit); [by left|done|done].
  - apply IH. intros e' lit' He'. apply Hp. by right.
Qed.

Lemma lookup_prefix_unregistered p :
  (∀ e lit, e ∈ type_map → nmea e = Some lit → p ≠ String.list_byte_of_string lit) →
  lookup_prefix type_map p = Some kNMEAMessageUnknown.
Proof.
  intros Hp. destruct (lookup_prefix_type_map p) as [t Ht].
  by rewrite Ht, (lookup_prefix_no_match _ _ _ Hp Ht).
Qed.

(** A sentence that starts with six given characters has them to read. *)
Lemma take_6_length (l p : list byte) :
  take 6 l = p → length p = 6%nat → (6 ≤ length l)%nat.
Proof. intros <-. rewrite length_take. lia. Qed.

(** C5: for every prefix registered in the type map and every sentence
    whose first six characters are that prefix, [nmea_get_message_type]
    returns the entry's type, whatever follows the prefix; the heap is
    left as it was. *)
Theorem nmea_get_message_type_registered e lit h message a :
  e ∈ type_map → nmea e = Some lit →
  deref h message = Some (Chars a) →
  take 6 (c_string a) = String.list_byte_of_string lit →
  nmea_get_message_type message h = (Ok (type e), h).
Proof.
  intros He Hlit Hm Hpre.
  assert (entry_ok e) as Hok.
  { eapply Forall_forall; [apply type_map_ok|done]. }
  destruct (Hok lit Hlit) as [Hlen _].
  destruct (nmea_get_message_type_run h message a Hm) as (t & Ht & ->).
  { left. by eapply take_6_length. }
  rewrite Hpre, (lookup_prefix_registered e lit He Hlit) in Ht. by simplify_eq.
Qed.

(** C6: for every non-null sentence whose first six characters are no
    registered prefix, [nmea_get_message_type] returns
    [kNMEAMessageUnknown]: the scan stops at the sentinel. *)
Theorem nmea_get_message_type_unregistered h message a :
  deref h message = Some (Chars a) →
  is_Some (strlen_arr a) →
  (∀ e lit, e ∈ type_map → nmea e = Some lit →
     take 6 (c_string a) ≠ String.list_byte_of_string lit) →
  nmea_get_message_type message h = (Ok kNMEAMessageUnknown, h).
Proof.
  intros Hm Ha Hpre.
  destruct (nmea_get_message_type_run h message a Hm) as (t & Ht & ->); [by right|].
  rewrite (lookup_prefix_unregistered _ Hpre) in Ht. by simplify_eq.
Qed.

(** C3: a sentence that starts with the usual VTG prefix "$GPVTG" is
    classified [kNMEAMessageUnknown], not [kNMEAMessageVTG]: the type map
    has an entry for VTG, it registers "$GPVTF", and it is the only entry
    for VTG. *)
Theorem nmea_get_message_type_GPVTG h message a :
  deref h message = Some (Chars a) →
  take 6 (c_string a) = String.list_byte_of_string "$GPVTG" →
  nmea_get_message_type message h = (Ok kNMEAMessageUnknown, h)
  ∧ (∃ e, e ∈ type_map ∧ type e = kNMEAMessageVTG ∧ nmea e = Some "$GPVTF")
  ∧ (∀ e, e ∈ type_map → type e = kNMEAMessageVTG → nmea e = Some "$GPVTF").
Proof.
  intros Hm Hpre. split; [|split].
  - destruct (nmea_get_message_type_run h message a Hm) as (t & Ht & ->).
    { left. by eapply take_6_length. }
    rewrite Hpre in Ht. vm_compute in Ht. by simplify_eq.
  - exists (TypeMapEntry (Some "$GPVTF") kNMEAMessageVTG).
    split; [|done]. unfold type_map. repeat constructor.
  - unfold type_map. intros e He Ht.
    repeat (apply elem_of_cons in He as [->|He]);
      try (by apply elem_of_nil in He); done.
Qed.

(** ** The dispatcher, step by step *)

Lemma ret_bind {A B} (a : A) (f : A → M B) h : (mret a ≫= f) h = f a h.
Proof. done. Qed.

Lemma bind_Ok {A B} (m : M A) (f : A → M B) h a h1 :
  m h = (Ok a, h1) → (m ≫= f) h = f a h1.
Proof. intros Hm. by rewrite bind_run, Hm. Qed.

Lemma int_of_size_t_run n :
  Z.of_nat n ≤ INT_MAX → int_of_size_t n = mret (Z.of_nat n).
Proof. intros Hn. unfold int_of_size_t. by rewrite (proj2 (Z.leb_le _ _)). Qed.

Lemma int_add_run x y : x + y ≤ INT_MAX → int_add x y = mret (x + y).
Proof. intros Hn. unfold int_add. by rewrite (proj2 (Z.leb_le _ _)). Qed.

Lemma fresh_live (h : heap) b : is_Some (h !! b) → fresh (dom h) ≠ b.
Proof. intros Hb <-. apply (is_fresh (dom h)). by apply elem_of_dom. Qed.

Lemma strncpy_run h d src s dd k w :
  deref h src = Some (Chars s) → h !! d = Some (Chars dd) →
  strncpy_arr s k = Some w → (k ≤ length dd)%nat →
  strncpy (Some d) src k h = (Ok tt, <[d := Chars (w ++ drop k dd)]> h).
Proof.
  intros Hs Hd Hw Hk. unfold strncpy.
  rewrite (bind_Ok _ _ _ _ _ (load_chars_run _ _ _ Hs)).
  rewrite (bind_Ok _ _ _ dd h) by (simpl; by rewrite Hd).
  rewrite Hw, (proj2 (Nat.leb_le _ _)) by done. simpl. by rewrite Hd.
Qed.

(** For a sentence that is a C string short enough for [int], the
    dispatcher reaches its switch with the copy made, in a new block. *)
Lemma nmea_parse_message_run h message outError a n :
  deref h message = Some (Chars a) →
  strlen_arr a = Some n →
  Z.of_nat n + 2 ≤ INT_MAX →
  ∃ t, nmea_get_message_type message h = (Ok t, h)
    ∧ nmea_parse_message message outError h =
        (parse_switch t (Some (fresh (dom h))) outError
           ≫= after_switch t (Some (fresh (dom h))))
          (<[fresh (dom h) := scratch a]> h).
Proof.
  intros Hm Hn Hlen. set (b := fresh (dom h)).
  assert (deref (<[b := scratch a]> h) message = Some (Chars a)) as Hm'.
  { destruct message as [m|]; [|done]. simpl in *.
    rewrite lookup_insert_ne; [done|]. apply fresh_live. eauto. }
  destruct (nmea_get_message_type_run h message a Hm) as (t & Ht & Hrun);
    [right; eauto|].
  destruct (nmea_get_message_type_run _ message a Hm') as (t' & Ht' & Hrun');
    [right; eauto|].
  assert (t' = t) as -> by congruence.
  exists t. split; [done|]. unfold nmea_parse_message.
  rewrite (deref_non_null _ _ _ Hm), assert_true, ret_bind.
  rewrite (bind_Ok _ _ _ n h) by (by rewrite (strlen_run _ _ _ Hm), Hn).
  rewrite int_of_size_t_run, ret_bind by (unfold INT_MAX in *; lia).
  rewrite int_add_run, ret_bind by done.
  replace (Z.to_nat (Z.of_nat n + 2)) with (n + 2)%nat by lia.
  rewrite (bind_Ok _ _ _ (Some b) (<[b := Chars (replicate (n + 2) NUL)]> h)) by done.
  rewrite (bind_Ok _ _ _ tt (<[b := scratch a]> h)).
  - by rewrite (bind_Ok _ _ _ _ _ Hrun').
  - rewrite (strncpy_run _ b message a (replicate (n + 2) NUL) (n + 2)
               (c_string a ++ [NUL; NUL])).
    + rewrite insert_insert_eq, drop_ge, app_nil_r; [done|].
      by rewrite length_replicate.
    + destruct message as [m|]; [|done]. simpl in *.
      rewrite lookup_insert_ne; [done|]. apply fresh_live. eauto.
    + apply lookup_insert_eq.
    + by rewrite (strncpy_arr_c_string 1 a n Hn).
    + by rewrite length_replicate.
Qed.

(** ** What a normal return tells *)

Lemma assert_Ok_inv e h x h' : assert e h = (Ok x, h') → h' = h.
Proof. unfold assert. destruct NDEBUG, e; by intros [= <-]. Qed.

Lemma strlen_Ok_inv h p n h' :
  strlen p h = (Ok n, h') →
  ∃ a, deref h p = Some (Chars a) ∧ strlen_arr a = Some n ∧ h' = h.
Proof.
  unfold strlen. intros (a & h1 & [Ha ->]%load_chars_Ok_inv & H)%bind_Ok_inv.
  exists a. destruct (strlen_arr a); [|done]. by injection H as <- <-.
Qed.

Lemma int_of_size_t_Ok_inv n h x h' :
  int_of_size_t n h = (Ok x, h') → Z.of_nat n ≤ INT_MAX ∧ x = Z.of_nat n ∧ h' = h.
Proof.
  unfold int_of_size_t. destruct (Z.leb_spec (Z.of_nat n) INT_MAX); [|done].
  by intros [= <- <-].
Qed.

Lemma int_add_Ok_inv x y h z h' :
  int_add x y h = (Ok z, h') → x + y ≤ INT_MAX ∧ z = x + y ∧ h' = h.
Proof.
  unfold int_add. destruct (Z.leb_spec (x + y) INT_MAX); [|done].
  by intros [= <- <-].
Qed.

(** A call that returns was given a C string short enough for [int]. *)
Lemma nmea_parse_message_Ok_wf h message outError r h' :
  nmea_parse_message message outError h = (Ok r, h') →
  ∃ a n, deref h message = Some (Chars a) ∧ strlen_arr a = Some n
         ∧ Z.of_nat n + 2 ≤ INT_MAX.
Proof.
  unfold nmea_parse_message.
  intros (? & h1 & ->%assert_Ok_inv & H)%bind_Ok_inv.
  apply bind_Ok_inv in H as (n & h2 & (a & Ha & Hn & ->)%strlen_Ok_inv & H).
  apply bind_Ok_inv in H as (len & h3 & (_ & -> & ->)%int_of_size_t_Ok_inv & H).
  apply bind_Ok_inv in H as (sz & h4 & (Hsz & _ & _)%int_add_Ok_inv & _).
  eauto.
Qed.

Lemma after_switch_Ok_inv t copy parsed h r h' :
  after_switch t copy parsed h = (Ok r, h') →
  ∃ b m hf, parsed = Some b ∧ r = Some b
    ∧ free copy h = (Ok tt, hf)
    ∧ hf !! b = Some (Msg m)
    ∧ h' = <[b := Msg (NmeaMessage t (msg_payload m))]> hf.
Proof.
  unfold after_switch.
  intros (? & h1 & ->%assert_Ok_inv & H)%bind_Ok_inv.
  apply bind_Ok_inv in H as ([] & hf & Hfree & H).
  apply bind_Ok_inv in H as ([] & h2 & Hstore & H).
  injection H as <- <-.
  destruct parsed as [b|]; simpl in Hstore; [|done].
  destruct (hf !! b) as [[| |m]|] eqn:Hb; try done.
  injection Hstore as <-. by exists b, m, hf.
Qed.

(** The default case of the switch: the code is written through a
    non-null [outError], and [parsed] is NULL. *)
Lemma parse_switch_Unknown_inv copy outError h r h' :
  parse_switch kNMEAMessageUnknown copy outError h = (Ok r, h') →
  r = NULL
  ∧ (∀ e, outError = Some e → h' = <[e := ErrCell kNMEAErrorTypeNotUnderstood]> h)
  ∧ (outError = NULL → h' = h).
Proof.
  unfold parse_switch. intros ([] & h1 & Hst & H)%bind_Ok_inv.
  injection H as <- <-. split; [done|].
  destruct outError as [e|]; simpl in Hst.
  - destruct (h !! e) as [[]|]; try done. injection Hst as <-.
    split; [by intros ? [= <-]|done].
  - injection Hst as <-. done.
Qed.

(** A call that returns went through the switch with a type other than
    [kNMEAMessageUnknown], got a message struct from the decoder, freed
    the copy and set the struct's [type]. *)
Lemma nmea_parse_message_Ok_inv h message outError r h' :
  nmea_parse_message message outError h = (Ok r, h') →
  ∃ a t b m h2,
    deref h message = Some (Chars a)
    ∧ nmea_get_message_type message h = (Ok t, h)
    ∧ t ≠ kNMEAMessageUnknown
    ∧ parse_switch t (Some (fresh (dom h))) outError (<[fresh (dom h) := scratch a]> h)
        = (Ok (Some b), h2)
    ∧ r = Some b
    ∧ is_Some (h2 !! fresh (dom h))
    ∧ delete (fresh (dom h)) h2 !! b = Some (Msg m)
    ∧ h' = <[b := Msg (NmeaMessage t (msg_payload m))]> (delete (fresh (dom h)) h2).
Proof.
  intros H. destruct (nmea_parse_message_Ok_wf _ _ _ _ _ H) as (a & n & Ha & Hn & Hlen).
  destruct (nmea_parse_message_run h message outError a n Ha Hn Hlen) as (t & Ht & Hrun).
  rewrite Hrun in H.
  apply bind_Ok_inv in H as (parsed & h2 & Hsw & H).
  apply after_switch_Ok_inv in H as (b & m & hf & -> & -> & Hfree & Hb & ->).
  simpl in Hfree. destruct (h2 !! fresh (dom h)) eqn:Hcopy; [|done].
  injection Hfree as <-.
  exists a, t, b, m, h2. repeat split; eauto.
  intros ->. by apply parse_switch_Unknown_inv in Hsw as [? _].
Qed.

(** ** Footprints of the primitives *)

Lemma pure_ret {A} (a : A) : pure (mret a).
Proof. done. Qed.

Lemma pure_undef {A} : pure (@undef A).
Proof. done. Qed.

Lemma pure_bind {A B} (m : M A) (f : A → M B) :
  pure m → (∀ a, pure (f a)) → pure (m ≫= f).
Proof.
  intros Hm Hf h. rewrite bind_run. specialize (Hm h).
  destruct (m h) as [[a| |] h1]; simpl in *; subst; [apply Hf|done..].
Qed.

Lemma pure_assert e : pure (assert e).
Proof. intros h. unfold assert. by destruct NDEBUG, e. Qed.

Lemma pure_load_chars p : pure (load_chars p).
Proof. intros h. destruct p as [b|]; simpl; [|done]. by destruct (h !! b) as [[]|]. Qed.

Lemma pure_strlen p : pure (strlen p).
Proof.
  apply pure_bind; [apply pure_load_chars|].
  intros a. destruct (strlen_arr a); [apply pure_ret|apply pure_undef].
Qed.

Lemma pure_strncmp p lit n : pure (strncmp p lit n).
Proof.
  apply pure_bind; [apply pure_load_chars|].
  intros a. destruct (strncmp_arr a (literal lit) n); [apply pure_ret|apply pure_undef].
Qed.

Lemma pure_get_message_type_loop entries message :
  pure (get_message_type_loop entries message).
Proof.
  induction entries as [|e rest IH]; simpl; [apply pure_undef|].
  destruct (nmea e) as [lit|]; [|apply pure_ret].
  apply pure_bind; [apply pure_strncmp|].
  intros c. destruct (c =? 0); [apply pure_ret|apply IH].
Qed.

Lemma pure_nmea_get_message_type message : pure (nmea_get_message_type message).
Proof.
  apply pure_bind; [apply pure_assert|]. intros _. apply pure_get_message_type_loop.
Qed.

Lemma keeps_pure {A} b c (m : M A) : pure m → keeps b c m.
Proof. intros Hm h Hb. by rewrite Hm. Qed.

Lemma keeps_bind {A B} b c (m : M A) (f : A → M B) :
  keeps b c m → (∀ a, keeps b c (f a)) → keeps b c (m ≫= f).
Proof.
  intros Hm Hf h Hb. rewrite bind_run. specialize (Hm h Hb).
  destruct (m h) as [[a| |] h1]; simpl in *; [by apply Hf|done..].
Qed.

Lemma keeps_free b c p : p ≠ Some b → keeps b c (free p).
Proof.
  intros Hp h Hb. destruct p as [b'|]; simpl; [|done].
  destruct (h !! b'); simpl; [|done]. rewrite lookup_delete_ne; [done|congruence].
Qed.

Lemma keeps_store_chars b c p a : p ≠ Some b → keeps b c (store_chars p a).
Proof.
  intros Hp h Hb. destruct p as [b'|]; simpl; [|done].
  destruct (h !! b') as [[]|]; simpl; try done.
  rewrite lookup_insert_ne; [done|congruence].
Qed.

(** A write to an error object or to a [type] field does not reach a
    character array. *)
Lemma keeps_store_err b a p e : keeps b (Chars a) (store_err p e).
Proof.
  intros h Hb. destruct p as [b'|]; simpl; [|done].
  destruct (h !! b') as [[]|] eqn:Hb'; simpl; try done.
  rewrite lookup_insert_ne; [done|congruence].
Qed.

Lemma keeps_store_type b a p t : keeps b (Chars a) (store_type p t).
Proof.
  intros h Hb. destruct p as [b'|]; simpl; [|done].
  destruct (h !! b') as [[]|] eqn:Hb'; simpl; try done.
  rewrite lookup_insert_ne; [done|congruence].
Qed.

Lemma keeps_new_message b c m : keeps b c (new_message m).
Proof.
  intros h Hb. simpl. rewrite lookup_insert_ne; [done|]. apply fresh_live. eauto.
Qed.

Lemma keeps_after_switch b a t copy parsed :
  copy ≠ Some b → keeps b (Chars a) (after_switch t copy parsed).
Proof.
  intros Hcopy. unfold after_switch.
  apply keeps_bind; [apply keeps_pure, pure_assert|]. intros _.
  apply keeps_bind; [by apply keeps_free|]. intros _.
  apply keeps_bind; [apply keeps_store_type|]. intros _.
  apply keeps_pure, pure_ret.
Qed.

Lemma keeps_parse_switch b a t copy outError :
  decoder_frame parse_gga → decoder_frame parse_gsa →
  decoder_frame parse_gsv → decoder_frame parse_vtg →
  copy ≠ Some b →
  keeps b (Chars a) (parse_switch t copy outError).
Proof.
  intros Hgga Hgsa Hgsv Hvtg Hcopy. destruct t; simpl; [|by auto..].
  apply keeps_bind; [|intros _; apply keeps_pure, pure_ret].
  destruct outError; simpl; [by apply keeps_store_err|apply keeps_pure, pure_ret].
Qed.

(** The sample decoders keep to the frame. *)
Lemma accepting_decoder_frame pl : decoder_frame (accepting_decoder pl).
Proof.
  intros msg outErr b c Hmsg. unfold accepting_decoder.
  apply keeps_bind; [apply keeps_pure, pure_load_chars|]. intros a.
  apply keeps_bind; [by apply keeps_store_chars|]. intros _.
  apply keeps_new_message.
Qed.

Lemma rejecting_decoder_frame e : decoder_frame (rejecting_decoder e).
Proof.
  intros msg outErr b c _. unfold rejecting_decoder.
  apply keeps_bind; [|intros _; apply keeps_pure, pure_ret].
  destruct outErr; simpl; [by apply keeps_store_err|apply keeps_pure, pure_ret].
Qed.

(** Without a C string short enough for [int] behind [message], the
    dispatcher stops before it has written anything. *)
Lemma nmea_parse_message_early h message outError :
  (∀ a n, deref h message = Some (Chars a) → strlen_arr a = Some n →
          ¬ Z.of_nat n + 2 ≤ INT_MAX) →
  (nmea_parse_message message outError h).2 = h.
Proof.
  intros Hbad. unfold nmea_parse_message.
  rewrite bind_run. pose proof (pure_assert (non_null message) h) as Has.
  destruct (assert (non_null message) h) as [[[]| |] h1]; simpl in Has; subst; [|done..].
  rewrite bind_run. pose proof (pure_strlen message h) as Hlen.
  destruct (strlen message h) as [[n| |] h1] eqn:Hs; simpl in Hlen; subst; [|done..].
  apply strlen_Ok_inv in Hs as (a & Ha & Hn & _).
  specialize (Hbad a n Ha Hn).
  destruct (Z.leb_spec (Z.of_nat n) INT_MAX) as [Hle|Hgt].
  - rewrite int_of_size_t_run, ret_bind by done.
    unfold int_add. by rewrite (proj2 (Z.leb_gt _ _)) by lia.
  - unfold int_of_size_t. by rewrite (proj2 (Z.leb_gt _ _)) by lia.
Qed.

(** ** The claims on [nmea_parse_message] *)

(** C4: tag consistency.  If [nmea_parse_message] returns a record, the
    record's [type] is the one [nmea_get_message_type] computes on the
    same sentence: it is written by the dispatcher, whatever the decoder
    left there. *)
Theorem nmea_parse_message_type_consistent h message outError r h' :
  nmea_parse_message message outError h = (Ok r, h') →
  ∃ b m t,
    r = Some b ∧ h' !! b = Some (Msg m)
    ∧ nmea_get_message_type message h = (Ok t, h)
    ∧ msg_type m = t.
Proof.
  intros (a & t & b & m & h2 & _ & Ht & _ & _ & -> & _ & _ & ->)%nmea_parse_message_Ok_inv.
  eexists b, _, t. by rewrite lookup_insert_eq.
Qed.

(** C7: if [nmea_parse_message] returns a record, its [type] is not
    [kNMEAMessageUnknown]: on that type the switch leaves NULL in
    [parsed], and no record is returned. *)
Theorem nmea_parse_message_type_known h message outError r h' :
  nmea_parse_message message outError h = (Ok r, h') →
  ∃ b m, r = Some b ∧ h' !! b = Some (Msg m) ∧ msg_type m ≠ kNMEAMessageUnknown.
Proof.
  intros (a & t & b & m & h2 & _ & _ & Ht & _ & -> & _ & _ & ->)%nmea_parse_message_Ok_inv.
  eexists b, _. by rewrite lookup_insert_eq.
Qed.

(** C10: [nmea_parse_message] returns normally only with a non-null
    record, so that [parsed->type = t] writes to a message struct on
    every normal return.  With assertions enabled, whenever the switch
    leaves NULL in [parsed] the call ends in [abort()], in the heap the
    switch left; on the unknown-type path that heap already holds
    [kNMEAErrorTypeNotUnderstood] in the caller's error object. *)
Theorem nmea_parse_message_assert h message outError a n t h2 :
  NDEBUG = false →
  deref h message = Some (Chars a) →
  strlen_arr a = Some n →
  Z.of_nat n + 2 ≤ INT_MAX →
  nmea_get_message_type message h = (Ok t, h) →
  parse_switch t (Some (fresh (dom h))) outError (<[fresh (dom h) := scratch a]> h)
    = (Ok NULL, h2) →
  nmea_parse_message message outError h = (Abort, h2)
  ∧ (t = kNMEAMessageUnknown →
       ∀ e, outError = Some e → h2 !! e = Some (ErrCell kNMEAErrorTypeNotUnderstood))
  ∧ (∀ h0 message0 outError0,
       match nmea_parse_message message0 outError0 h0 with
       | (Ok r, h') => ∃ b m, r = Some b ∧ h' !! b = Some (Msg m)
       | _ => True
       end).
Proof.
  intros HN Ha Hn Hlen Ht Hsw. repeat split.
  - destruct (nmea_parse_message_run h message outError a n Ha Hn Hlen) as (t' & Ht' & ->).
    assert (t' = t) as -> by congruence.
    rewrite (bind_Ok _ _ _ _ _ Hsw). unfold after_switch, assert. by rewrite HN.
  - intros -> e ->. apply parse_switch_Unknown_inv in Hsw as (_ & He & _).
    rewrite (He e eq_refl). apply lookup_insert_eq.
  - intros h0 message0 outError0.
    destruct (nmea_parse_message message0 outError0 h0) as [[r| |] h'] eqn:H; [|done..].
    apply nmea_parse_message_Ok_inv
      in H as (? & t0 & b & m & ? & _ & _ & _ & _ & -> & _ & _ & ->).
    eexists b, _. by rewrite lookup_insert_eq.
Qed.

(** C8: neither [nmea_get_message_type] nor [nmea_parse_message] writes
    to the caller's sentence.  The classifier leaves the whole heap as it
    is.  The dispatcher hands the decoders a copy in a new block, so with
    decoders that write to no character array but the one they are
    handed, the block of the sentence holds after the call what it held
    before, however the call ends. *)
Theorem nmea_input_not_mutated h m outError :
  decoder_frame parse_gga → decoder_frame parse_gsa →
  decoder_frame parse_gsv → decoder_frame parse_vtg →
  (nmea_get_message_type (Some m) h).2 = h
  ∧ (nmea_parse_message (Some m) outError h).2 !! m = h !! m.
Proof.
  intros Hgga Hgsa Hgsv Hvtg. split; [apply pure_nmea_get_message_type|].
  destruct (h !! m) as [c|] eqn:Hm; cycle 1.
  { rewrite nmea_parse_message_early; [done|]. simpl. intros a n. by rewrite Hm. }
  destruct c as [a| |]; cycle 1.
  { rewrite nmea_parse_message_early; [done|]. simpl. intros a n. by rewrite Hm. }
  { rewrite nmea_parse_message_early; [done|]. simpl. intros a n. by rewrite Hm. }
  destruct (strlen_arr a) as [n|] eqn:Hn; cycle 1.
  { rewrite nmea_parse_message_early; [done|]. simpl. intros a' n'.
    rewrite Hm. intros [= <-]. by rewrite Hn. }
  destruct (decide (Z.of_nat n + 2 ≤ INT_MAX)) as [Hlen|Hlen]; cycle 1.
  { rewrite nmea_parse_message_early; [done|]. simpl. intros a' n'.
    rewrite Hm. intros [= <-]. rewrite Hn. by intros [= <-]. }
  destruct (nmea_parse_message_run h (Some m) outError a n Hm Hn Hlen) as (t & _ & ->).
  assert (Some (fresh (dom h)) ≠ Some m) as Hcopy.
  { intros [= Heq]. by apply (fresh_live h m). }
  apply keeps_bind.
  - by apply keeps_parse_switch.
  - intros parsed. by apply keeps_after_switch.
  - rewrite lookup_insert_ne; [done|congruence].
Qed.

(** ** More on the classifier *)

Lemma strncmp_arr_zero_inv p : ∀ a,
  NUL ∉ p →
  strncmp_arr a (p ++ [NUL]) (length p) = Some 0 →
  take (length p) (c_string a) = p.
Proof.
  induction p as [|x p IH]; intros a Hp; simpl; [by rewrite take_0|].
  apply not_elem_of_cons in Hp as [Hx Hp].
  destruct a as [|c r]; simpl; [done|].
  destruct (Byte.eqb c x) eqn:Ecx.
  - apply Byte.byte_dec_bl in Ecx as ->.
    rewrite eqb_NUL_false by done. intros Hr. simpl. by rewrite (IH r Hp Hr).
  - apply Byte.eqb_false in Ecx. intros [= H0]. destruct Ecx. apply to_N_inj. lia.
Qed.

Lemma nmea_get_message_type_Ok_loop h message t h' :
  nmea_get_message_type message h = (Ok t, h') →
  get_message_type_loop type_map message h = (Ok t, h').
Proof.
  unfold nmea_get_message_type.
  by intros ([] & h1 & ->%assert_Ok_inv & H)%bind_Ok_inv.
Qed.

Lemma nmea_get_message_type_Ok_deref h message t h' :
  nmea_get_message_type message h = (Ok t, h') →
  ∃ a, deref h message = Some (Chars a).
Proof.
  intros H%nmea_get_message_type_Ok_loop. unfold type_map in H. simpl in H.
  apply bind_Ok_inv in H as (c & h1 & Hc & _). unfold strncmp in Hc.
  apply bind_Ok_inv in Hc as (a & h2 & [Ha _]%load_chars_Ok_inv & _). eauto.
Qed.

Lemma get_message_type_loop_Ok_inv entries h message a t h' :
  Forall entry_ok entries →
  deref h message = Some (Chars a) →
  get_message_type_loop entries message h = (Ok t, h') →
  t ≠ kNMEAMessageUnknown →
  ∃ e lit, e ∈ entries ∧ nmea e = Some lit ∧ type e = t
           ∧ take 6 (c_string a) = String.list_byte_of_string lit.
Proof.
  intros Hok Hm. induction Hok as [|e rest He _ IH]; simpl; [done|].
  destruct (nmea e) as [lit|] eqn:Elit; [|by intros [= <- _] ?].
  destruct (He lit Elit) as [Hlen Hnul].
  rewrite bind_run, (strncmp_run _ _ _ _ _ Hm). unfold literal.
  destruct (strncmp_arr a _ 6) as [c|] eqn:Hc; [|done].
  destruct (Z.eqb_spec c 0) as [->|Hz].
  - intros [= <- _] _. exists e, lit. repeat split; [by left|done|].
    rewrite <-Hlen in Hc |- *. by apply strncmp_arr_zero_inv.
  - intros Hrest Ht. destruct (IH Hrest Ht) as (e' & lit' & He' & ?).
    exists e', lit'. split; [by right|done].
Qed.

(** X1: on every NUL-terminated sentence the classifier returns a type and
    leaves the heap as it was, and the type depends on the first six
    characters only: two sentences that agree on them, in whatever heaps,
    get the same type. *)
Theorem nmea_get_message_type_prefix_only h1 h2 m1 m2 a1 a2 :
  deref h1 m1 = Some (Chars a1) →
  deref h2 m2 = Some (Chars a2) →
  is_Some (strlen_arr a1) →
  is_Some (strlen_arr a2) →
  take 6 (c_string a1) = take 6 (c_string a2) →
  ∃ t, nmea_get_message_type m1 h1 = (Ok t, h1)
       ∧ nmea_get_message_type m2 h2 = (Ok t, h2).
Proof.
  intros Hm1 Hm2 Ha1 Ha2 Heq.
  destruct (nmea_get_message_type_run h1 m1 a1 Hm1) as (t1 & Ht1 & Hr1); [by right|].
  destruct (nmea_get_message_type_run h2 m2 a2 Hm2) as (t2 & Ht2 & Hr2); [by right|].
  exists t1. split; [done|]. rewrite Heq in Ht1. congruence.
Qed.

(** X2: a NUL-terminated sentence of fewer than six characters, the empty
    one included, is classified [kNMEAMessageUnknown]: [strncmp] stops at
    its NUL and reads no further. *)
Theorem nmea_get_message_type_short h message a :
  deref h message = Some (Chars a) →
  is_Some (strlen_arr a) →
  (length (c_string a) < 6)%nat →
  nmea_get_message_type message h = (Ok kNMEAMessageUnknown, h).
Proof.
  intros Hm Ha Hshort.
  destruct (nmea_get_message_type_run h message a Hm) as (t & Ht & ->); [by right|].
  rewrite lookup_prefix_unregistered in Ht; [by simplify_eq|].
  intros e lit He Hlit Heq.
  assert (entry_ok e) as Hok by (eapply Forall_forall; [apply type_map_ok|done]).
  destruct (Hok lit Hlit) as [Hlen _].
  rewrite <-Heq, length_take in Hlen. lia.
Qed.

(** X3: the classifier returns a type other than [kNMEAMessageUnknown]
    only when the first six characters of the sentence are the literal of
    a [type_map] entry of that type. *)
Theorem nmea_get_message_type_sound h message a t h' :
  deref h message = Some (Chars a) →
  nmea_get_message_type message h = (Ok t, h') →
  t ≠ kNMEAMessageUnknown →
  ∃ e lit, e ∈ type_map ∧ nmea e = Some lit ∧ type e = t
           ∧ take 6 (c_string a) = String.list_byte_of_string lit.
Proof.
  intros Hm H%nmea_get_message_type_Ok_loop Ht.
  by eapply get_message_type_loop_Ok_inv; [apply type_map_ok|..].
Qed.

(** X4: a NULL [message] is caught before anything else happens.  Neither
    function returns normally on it, in either build, and the heap is left
    as it was; with assertions enabled both stop in [abort()]. *)
Theorem nmea_null_message h outError :
  (∀ t h', nmea_get_message_type NULL h ≠ (Ok t, h'))
  ∧ (∀ r h', nmea_parse_message NULL outError h ≠ (Ok r, h'))
  ∧ (nmea_get_message_type NULL h).2 = h
  ∧ (nmea_parse_message NULL outError h).2 = h
  ∧ (NDEBUG = false →
       nmea_get_message_type NULL h = (Abort, h)
       ∧ nmea_parse_message NULL outError h = (Abort, h)).
Proof.
  split; [|split; [|split; [|split]]].
  - by intros t h' [a ?]%nmea_get_message_type_Ok_deref.
  - by intros r h' (a & n & ? & _)%nmea_parse_message_Ok_wf.
  - apply pure_nmea_get_message_type.
  - by apply nmea_parse_message_early.
  - intros HN. split.
    + unfold nmea_get_message_type, assert. by rewrite HN.
    + unfold nmea_parse_message, assert. by rewrite HN.
Qed.

(** ** More on the dispatcher *)

Lemma fresh_not_live (h : heap) : h !! fresh (dom h) = None.
Proof. apply not_elem_of_dom, is_fresh. Qed.

Lemma after_switch_run t copy b m h2 :
  is_Some (h2 !! copy) →
  delete copy h2 !! b = Some (Msg m) →
  after_switch t (Some copy) (Some b) h2
    = (Ok (Some b), <[b := Msg (NmeaMessage t (msg_payload m))]> (delete copy h2)).
Proof.
  intros [c Hcopy] Hb. unfold after_switch. simpl non_null.
  rewrite assert_true, ret_bind.
  rewrite (bind_Ok _ _ _ tt (delete copy h2)) by (simpl; by rewrite Hcopy).
  rewrite (bind_Ok _ _ _ tt (<[b := Msg (NmeaMessage t (msg_payload m))]> (delete copy h2)));
    [done|]. simpl. by rewrite Hb.
Qed.

(** Without a C string short enough for [int] in a live array behind
    [message], the call is undefined before it has written anything. *)
Lemma nmea_parse_message_ill h message outError a :
  deref h message = Some (Chars a) →
  (∀ n, strlen_arr a = Some n → ¬ Z.of_nat n + 2 ≤ INT_MAX) →
  nmea_parse_message message outError h = (Undef, h).
Proof.
  intros Hm Hbad. unfold nmea_parse_message.
  rewrite (deref_non_null _ _ _ Hm), assert_true, ret_bind.
  rewrite bind_run, (strlen_run _ _ _ Hm).
  destruct (strlen_arr a) as [n|] eqn:Hn; [|done].
  specialize (Hbad n eq_refl).
  destruct (Z.leb_spec (Z.of_nat n) INT_MAX) as [Hle|Hgt].
  - rewrite int_of_size_t_run, ret_bind by done.
    unfold int_add. by rewrite (proj2 (Z.leb_gt _ _)) by lia.
  - unfold int_of_size_t. by rewrite (proj2 (Z.leb_gt _ _)) by lia.
Qed.

(** The copy is a C string with the characters of the sentence. *)
Lemma c_string_copy l : ∀ a n,
  strlen_arr a = Some n →
  length (c_string a) = n
  ∧ strlen_arr (c_string a ++ NUL :: l) = Some n
  ∧ c_string (c_string a ++ NUL :: l) = c_string a.
Proof.
  induction a as [|c r IH]; intros n; simpl; [done|].
  destruct (Byte.eqb c NUL) eqn:Ec; [by intros [= <-]|].
  destruct (strlen_arr r) as [k|]; simpl; [|done].
  intros [= <-]. destruct (IH k eq_refl) as (Hlen & Hs & Hc).
  simpl. by rewrite Ec, Hlen, Hs, Hc.
Qed.

(** X5: the record [nmea_parse_message] returns is the one its decoder
    returned, at the same address, with the payload as the decoder left it
    and the [type] set by the dispatcher. *)
Theorem nmea_parse_message_record h message outError r h' :
  nmea_parse_message message outError h = (Ok r, h') →
  ∃ a t b m h2,
    deref h message = Some (Chars a)
    ∧ parse_switch t (Some (fresh (dom h))) outError (<[fresh (dom h) := scratch a]> h)
        = (Ok (Some b), h2)
    ∧ r = Some b
    ∧ h2 !! b = Some (Msg m)
    ∧ h' !! b = Some (Msg (NmeaMessage t (msg_payload m))).
Proof.
  intros (a & t & b & m & h2 & Ha & _ & _ & Hsw & -> & _ & Hb & ->)%nmea_parse_message_Ok_inv.
  exists a, t, b, m, h2. repeat split; [done..| |apply lookup_insert_eq].
  by apply lookup_delete_Some in Hb as [_ ?].
Qed.

(** X6: when [nmea_parse_message] returns, the block of the copy, which
    was not live before the call, is not live after it, and apart from the
    [type] of the returned record every other block is as the decoder left
    it. *)
Theorem nmea_parse_message_frees_copy h message outError r h' :
  nmea_parse_message message outError h = (Ok r, h') →
  ∃ a t b h2,
    deref h message = Some (Chars a)
    ∧ parse_switch t (Some (fresh (dom h))) outError (<[fresh (dom h) := scratch a]> h)
        = (Ok (Some b), h2)
    ∧ r = Some b
    ∧ h !! fresh (dom h) = None
    ∧ h' !! fresh (dom h) = None
    ∧ (∀ b', b' ≠ b → b' ≠ fresh (dom h) → h' !! b' = h2 !! b').
Proof.
  intros (a & t & b & m & h2 & Ha & _ & _ & Hsw & -> & _ & Hb & ->)%nmea_parse_message_Ok_inv.
  apply lookup_delete_Some in Hb as [Hne Hb].
  exists a, t, b, h2. repeat split; [done..|apply fresh_not_live| |].
  - rewrite lookup_insert_ne by done. apply lookup_delete_eq.
  - intros b' Hb' Hcopy. rewrite lookup_insert_ne by done. by apply lookup_delete_ne.
Qed.

(** X7: when the decoder chosen for a sentence returns a message struct
    that is live and not in the block of the copy, and leaves the copy
    live, [nmea_parse_message] returns that struct with its [type] set, in
    either build. *)
Theorem nmea_parse_message_success h message outError a n t b m h2 :
  deref h message = Some (Chars a) →
  strlen_arr a = Some n →
  Z.of_nat n + 2 ≤ INT_MAX →
  nmea_get_message_type message h = (Ok t, h) →
  parse_switch t (Some (fresh (dom h))) outError (<[fresh (dom h) := scratch a]> h)
    = (Ok (Some b), h2) →
  is_Some (h2 !! fresh (dom h)) →
  b ≠ fresh (dom h) →
  h2 !! b = Some (Msg m) →
  nmea_parse_message message outError h
    = (Ok (Some b),
       <[b := Msg (NmeaMessage t (msg_payload m))]> (delete (fresh (dom h)) h2)).
Proof.
  intros Ha Hn Hlen Ht Hsw Hcopy Hne Hb.
  destruct (nmea_parse_message_run h message outError a n Ha Hn Hlen) as (t' & Ht' & ->).
  assert (t' = t) as -> by congruence.
  rewrite (bind_Ok _ _ _ _ _ Hsw). apply after_switch_run; [done|].
  by rewrite lookup_delete_ne.
Qed.

(** X8: with assertions enabled, on every sentence whose first six
    characters are no registered prefix, and with an error pointer that is
    NULL or points to an error object, [nmea_parse_message] stops in
    [abort()], whatever the decoders are: the heap then holds the copy and,
    under a non-null error pointer, [kNMEAErrorTypeNotUnderstood], and is
    otherwise as the caller had it. *)
Theorem nmea_parse_message_unknown h message outError a n :
  NDEBUG = false →
  deref h message = Some (Chars a) →
  strlen_arr a = Some n →
  Z.of_nat n + 2 ≤ INT_MAX →
  (∀ e lit, e ∈ type_map → nmea e = Some lit →
     take 6 (c_string a) ≠ String.list_byte_of_string lit) →
  (outError = NULL ∨ ∃ e0, deref h outError = Some (ErrCell e0)) →
  nmea_parse_message message outError h
    = (Abort,
       match outError with
       | Some e => <[e := ErrCell kNMEAErrorTypeNotUnderstood]>
                     (<[fresh (dom h) := scratch a]> h)
       | None => <[fresh (dom h) := scratch a]> h
       end).
Proof.
  intros HN Ha Hn Hlen Hpre Herr.
  destruct (nmea_parse_message_run h message outError a n Ha Hn Hlen) as (t & Ht & ->).
  destruct (nmea_get_message_type_run h message a Ha) as (t' & Ht' & Hrun); [by right; eauto|].
  rewrite (lookup_prefix_unregistered _ Hpre) in Ht'.
  assert (t = kNMEAMessageUnknown) as -> by congruence.
  unfold parse_switch, after_switch, assert. rewrite HN.
  destruct Herr as [->|[e0 He0]]; [done|].
  destruct outError as [e|]; [|done]. simpl in He0.
  rewrite !bind_run. simpl.
  rewrite lookup_insert_ne, He0; [done|]. apply fresh_live. eauto.
Qed.

(** X10: what a decoder is handed.  For a sentence of [n] characters the
    copy is an array of [n + 2] characters in a block that was not live,
    holding a C string with the characters of the sentence; the rest of
    the heap is the caller's; the decoder chosen by the type runs on it
    with the caller's error pointer, and the dispatcher goes on from what
    the decoder returns. *)
Theorem nmea_parse_message_decoder_input h message outError a n :
  deref h message = Some (Chars a) →
  strlen_arr a = Some n →
  Z.of_nat n + 2 ≤ INT_MAX →
  ∃ t w,
    nmea_get_message_type message h = (Ok t, h)
    ∧ h !! fresh (dom h) = None
    ∧ length w = (n + 2)%nat
    ∧ strlen_arr w = Some n
    ∧ c_string w = c_string a
    ∧ nmea_parse_message message outError h =
        (parse_switch t (Some (fresh (dom h))) outError
           ≫= after_switch t (Some (fresh (dom h))))
          (<[fresh (dom h) := Chars w]> h).
Proof.
  intros Ha Hn Hlen.
  destruct (nmea_parse_message_run h message outError a n Ha Hn Hlen) as (t & Ht & Hrun).
  destruct (c_string_copy [NUL] a n Hn) as (Hl & Hs & Hc).
  exists t, (c_string a ++ [NUL; NUL]).
  repeat split; [done|apply fresh_not_live| |done..].
  rewrite length_app, Hl. simpl. lia.
Qed.

(** X11: with assertions compiled out, a NULL left in [parsed] by the
    switch leads to the write [parsed->type = t] through the null pointer:
    the call is undefined, it does not return NULL. *)
Theorem nmea_parse_message_NDEBUG_null_write h message outError a n t h2 :
  NDEBUG = true →
  deref h message = Some (Chars a) →
  strlen_arr a = Some n →
  Z.of_nat n + 2 ≤ INT_MAX →
  nmea_get_message_type message h = (Ok t, h) →
  parse_switch t (Some (fresh (dom h))) outError (<[fresh (dom h) := scratch a]> h)
    = (Ok NULL, h2) →
  (nmea_parse_message message outError h).1 = Undef.
Proof.
  intros HN Ha Hn Hlen Ht Hsw.
  destruct (nmea_parse_message_run h message outError a n Ha Hn Hlen) as (t' & Ht' & ->).
  assert (t' = t) as -> by congruence.
  rewrite (bind_Ok _ _ _ _ _ Hsw). unfold after_switch, assert. rewrite HN.
  rewrite ret_bind, bind_run. simpl.
  by destruct (h2 !! fresh (dom h)).
Qed.

(** X13: [nmea_parse_message] returns a record only for a sentence whose
    first six characters are the literal of a [type_map] entry, and the
    record then has that entry's type. *)
Theorem nmea_parse_message_registered_only h message outError r h' :
  nmea_parse_message message outError h = (Ok r, h') →
  ∃ a e lit b m,
    deref h message = Some (Chars a)
    ∧ e ∈ type_map ∧ nmea e = Some lit
    ∧ take 6 (c_string a) = String.list_byte_of_string lit
    ∧ r = Some b ∧ h' !! b = Some (Msg m) ∧ msg_type m = type e.
Proof.
  intros (a & t & b & m & h2 & Ha & Ht & Hknown & _ & -> & _ & _ & ->)%nmea_parse_message_Ok_inv.
  apply nmea_get_message_type_Ok_loop in Ht.
  destruct (get_message_type_loop_Ok_inv _ _ _ _ _ _ type_map_ok Ha Ht Hknown)
    as (e & lit & He & Hlit & <- & Hpre).
  exists a, e, lit, b. eexists. rewrite lookup_insert_eq. by repeat split.
Qed.

End Libnmea.

Arguments Chars {_ _} a.
Arguments ErrCell {_ _} e.
Arguments Msg {_ _} m.
Arguments NmeaMessage {_} _ _.
Arguments msg_type {_} _.
Arguments deref {_ _} h p.
Arguments scratch {_ _} a.
Arguments decoder_frame {_ _} d.
Arguments nmea_get_message_type {_ _} NDEBUG message _.
Arguments parse_switch {_} _ {_} _ _ _ _ t copy outError _.
Arguments nmea_parse_message {_} _ {_} NDEBUG _ _ _ _ message outError _.
Arguments caller_heap {_} payload s e0.
Arguments accepting_decoder nmea_error_t {_} pl _ _ _.
Arguments rejecting_decoder {_} payload e _ _ _.

(** ** The dispatcher on sample sentences

    Error codes are integers here, 1 for [kNMEAErrorTypeNotUnderstood] and
    2 for the code of a decoder; the caller's error object starts at 0.
    The sentence is in block 1, the error object in block 2, so the copy
    goes to block 3. *)

(** C1: on "$GPRMC,081836,A", whose prefix is in no entry of the type map,
    [nmea_parse_message] writes [kNMEAErrorTypeNotUnderstood] to the error
    object and then stops in [abort()] at [assert(parsed)]; with NDEBUG it
    goes on to write through the null [parsed].  It returns NULL in
    neither build. *)
Theorem nmea_parse_message_unknown_type_run :
  let h := caller_heap unit "$GPRMC,081836,A" 0 in
  let parse NDEBUG :=
    nmea_parse_message 1 NDEBUG
      (accepting_decoder Z tt) (accepting_decoder Z tt)
      (accepting_decoder Z tt) (accepting_decoder Z tt)
      (Some 1%positive) (Some 2%positive) h in
  nmea_get_message_type false (Some 1%positive) h = (Ok kNMEAMessageUnknown, h)
  ∧ (parse false).1 = Abort
  ∧ (parse false).2 !! 2%positive = Some (ErrCell 1)
  ∧ (parse true).1 = Undef.
Proof. by vm_compute. Qed.

(** C2: on "$GPGGA,123519,,", with a GGA decoder that rejects the sentence
    with its own code 2, [nmea_parse_message] leaves the decoder's code in
    the error object and then stops in [abort()] at [assert(parsed)]; with
    NDEBUG it goes on to write through the null [parsed].  It returns NULL
    in neither build. *)
Theorem nmea_parse_message_decoder_failure_run :
  let h := caller_heap unit "$GPGGA,123519,," 0 in
  let parse NDEBUG :=
    nmea_parse_message 1 NDEBUG
      (rejecting_decoder unit 2) (accepting_decoder Z tt)
      (accepting_decoder Z tt) (accepting_decoder Z tt)
      (Some 1%positive) (Some 2%positive) h in
  nmea_get_message_type false (Some 1%positive) h = (Ok kNMEAMessageGGA, h)
  ∧ (parse false).1 = Abort
  ∧ (parse false).2 !! 2%positive = Some (ErrCell 2)
  ∧ (parse true).1 = Undef.
Proof. by vm_compute. Qed.

(** C9: the copy is freed when a record is returned, but not on the two
    failure paths: [assert(parsed)] comes before [free(copy)], so on
    "$GPGSA,A,3" with a rejecting GSA decoder and on "$GPRMC,081836,A" the
    call stops in [abort()] with the copy still in block 3.  With NDEBUG
    the copy is freed on these paths, and the call then writes through the
    null [parsed]; it returns in neither build. *)
Theorem nmea_parse_message_copy_run :
  let parse NDEBUG s :=
    nmea_parse_message 1 NDEBUG
      (accepting_decoder Z tt) (rejecting_decoder unit 2)
      (accepting_decoder Z tt) (accepting_decoder Z tt)
      (Some 1%positive) (Some 2%positive) (caller_heap unit s 0) in
  ((parse false "$GPGGA,123519").1 = Ok (Some 4%positive)
   ∧ (parse false "$GPGGA,123519").2 !! 3%positive = None)
  ∧ ((parse false "$GPGSA,A,3").1 = Abort
     ∧ (parse false "$GPGSA,A,3").2 !! 3%positive
       = Some (scratch (literal "$GPGSA,A,3")))
  ∧ ((parse false "$GPRMC,081836,A").1 = Abort
     ∧ (parse false "$GPRMC,081836,A").2 !! 3%positive
       = Some (scratch (literal "$GPRMC,081836,A")))
  ∧ (parse true "$GPGSA,A,3").1 = Undef
  ∧ (parse true "$GPRMC,081836,A").1 = Undef.
Proof. by vm_compute. Qed.

(** ** The general statements at sample sentences *)

Lemma nmea_get_message_type_GPVTG_witness :
  let h := caller_heap unit "$GPVTG,054.7,T,034.4,M,005.5,N,010.2,K" (0 : Z) in
  let a := literal "$GPVTG,054.7,T,034.4,M,005.5,N,010.2,K" in
  deref h (Some 1%positive) = Some (Chars a)
  ∧ take 6 (c_string a) = String.list_byte_of_string "$GPVTG"
  ∧ nmea_get_message_type false (Some 1%positive) h = (Ok kNMEAMessageUnknown, h)
  ∧ (∃ e, e ∈ type_map ∧ type e = kNMEAMessageVTG ∧ nmea e = Some "$GPVTF")
  ∧ (∀ e, e ∈ type_map → type e = kNMEAMessageVTG → nmea e = Some "$GPVTF").
Proof.
  split; [reflexivity|]. split; [reflexivity|].
  apply (nmea_get_message_type_GPVTG Z unit false _ _
           (literal "$GPVTG,054.7,T,034.4,M,005.5,N,010.2,K")); reflexivity.
Defined.

Lemma nmea_get_message_type_registered_witness :
  let h := caller_heap unit "$GPGSV,3,1,11,03,03,111,00" (0 : Z) in
  let a := literal "$GPGSV,3,1,11,03,03,111,00" in
  let e := TypeMapEntry (Some "$GPGSV") kNMEAMessageGSV in
  e ∈ type_map
  ∧ nmea e = Some "$GPGSV"
  ∧ deref h (Some 1%positive) = Some (Chars a)
  ∧ take 6 (c_string a) = String.list_byte_of_string "$GPGSV"
  ∧ nmea_get_message_type false (Some 1%positive) h = (Ok kNMEAMessageGSV, h).
Proof.
  assert (TypeMapEntry (Some "$GPGSV") kNMEAMessageGSV ∈ type_map) as He
    by (unfold type_map; repeat constructor).
  split; [exact He|]. split; [reflexivity|]. split; [reflexivity|].
  split; [reflexivity|].
  apply (nmea_get_message_type_registered Z unit false _ "$GPGSV" _ _
           (literal "$GPGSV,3,1,11,03,03,111,00") He); reflexivity.
Defined.

Lemma nmea_get_message_type_unregistered_witness :
  let h := caller_heap unit "$GPRMC,081836,A" (0 : Z) in
  let a := literal "$GPRMC,081836,A" in
  deref h (Some 1%positive) = Some (Chars a)
  ∧ is_Some (strlen_arr a)
  ∧ (∀ e lit, e ∈ type_map → nmea e = Some lit →
       take 6 (c_string a) ≠ String.list_byte_of_string lit)
  ∧ nmea_get_message_type false (Some 1%positive) h = (Ok kNMEAMessageUnknown, h).
Proof.
  assert (∀ e lit, e ∈ type_map → nmea e = Some lit →
            take 6 (c_string (literal "$GPRMC,081836,A"))
            ≠ String.list_byte_of_string lit) as Hno.
  { unfold type_map. intros e lit He Hlit.
    repeat (apply elem_of_cons in He as [->|He]);
      try (by apply elem_of_nil in He); simpl in Hlit; by simplify_eq. }
  split; [reflexivity|]. split; [by eexists|]. split; [exact Hno|].
  apply (nmea_get_message_type_unregistered Z unit false _ _
           (literal "$GPRMC,081836,A")); [reflexivity|by eexists|exact Hno].
Defined.

Lemma nmea_parse_message_type_consistent_witness :
  let h := caller_heap unit "$GPGGA,123519,4807.038,N" (0 : Z) in
  let run :=
    nmea_parse_message 1 false
      (accepting_decoder Z tt) (rejecting_decoder unit 2)
      (rejecting_decoder unit 2) (rejecting_decoder unit 2)
      (Some 1%positive) (Some 2%positive) h in
  run = (Ok (Some 4%positive), run.2)
  ∧ ∃ b m t,
      Some 4%positive = Some b ∧ run.2 !! b = Some (Msg m)
      ∧ nmea_get_message_type false (Some 1%positive) h = (Ok t, h)
      ∧ msg_type m = t.
Proof.
  intros h run. split; [reflexivity|].
  apply (nmea_parse_message_type_consistent Z 1 unit false
           (accepting_decoder Z tt) (rejecting_decoder unit 2)
           (rejecting_decoder unit 2) (rejecting_decoder unit 2)
           h (Some 1%positive) (Some 2%positive) (Some 4%positive) run.2).
  reflexivity.
Defined.

Lemma nmea_parse_message_type_known_witness :
  let h := caller_heap unit "$GPGSA,A,3,04,05,,09" (0 : Z) in
  let run :=
    nmea_parse_message 1 false
      (rejecting_decoder unit 2) (accepting_decoder Z tt)
      (rejecting_decoder unit 2) (rejecting_decoder unit 2)
      (Some 1%positive) NULL h in
  run = (Ok (Some 4%positive), run.2)
  ∧ ∃ b m,
      Some 4%positive = Some b ∧ run.2 !! b = Some (Msg m)
      ∧ msg_type m ≠ kNMEAMessageUnknown.
Proof.
  intros h run. split; [reflexivity|].
  apply (nmea_parse_message_type_known Z 1 unit false
           (rejecting_decoder unit 2) (accepting_decoder Z tt)
           (rejecting_decoder unit 2) (rejecting_decoder unit 2)
           h (Some 1%positive) NULL (Some 4%positive) run.2).
  reflexivity.
Defined.

Lemma nmea_input_not_mutated_witness :
  let h := caller_heap unit "$GPGGA,123519,4807.038,N" (0 : Z) in
  decoder_frame (accepting_decoder Z tt)
  ∧ decoder_frame (rejecting_decoder unit (2 : Z))
  ∧ decoder_frame (rejecting_decoder unit (2 : Z))
  ∧ decoder_frame (rejecting_decoder unit (2 : Z))
  ∧ (nmea_get_message_type false (Some 1%positive) h).2 = h
  ∧ (nmea_parse_message 1 false
       (accepting_decoder Z tt) (rejecting_decoder unit 2)
       (rejecting_decoder unit 2) (rejecting_decoder unit 2)
       (Some 1%positive) (Some 2%positive) h).2 !! 1%positive = h !! 1%positive.
Proof.
  split; [apply accepting_decoder_frame|].
  split; [apply rejecting_decoder_frame|].
  split; [apply rejecting_decoder_frame|].
  split; [apply rejecting_decoder_frame|].
  apply (nmea_input_not_mutated Z 1 unit false);
    [apply accepting_decoder_frame|apply rejecting_decoder_frame..].
Defined.

Lemma nmea_parse_message_assert_witness :
  let h := caller_heap unit "$GPRMC,081836,A" (0 : Z) in
  let a := literal "$GPRMC,081836,A" in
  let h2 : gmap block (cell Z unit) :=
    <[2%positive := ErrCell 1]> (<[3%positive := scratch a]> h) in
  let switch :=
    parse_switch 1
      (accepting_decoder Z tt) (accepting_decoder Z tt)
      (accepting_decoder Z tt) (accepting_decoder Z tt) in
  let parse :=
    nmea_parse_message 1 false
      (accepting_decoder Z tt) (accepting_decoder Z tt)
      (accepting_decoder Z tt) (accepting_decoder Z tt) in
  false = false
  ∧ deref h (Some 1%positive) = Some (Chars a)
  ∧ strlen_arr a = Some 15%nat
  ∧ Z.of_nat 15 + 2 ≤ INT_MAX
  ∧ nmea_get_message_type false (Some 1%positive) h = (Ok kNMEAMessageUnknown, h)
  ∧ switch kNMEAMessageUnknown (Some (fresh (dom h))) (Some 2%positive)
      (<[fresh (dom h) := scratch a]> h) = (Ok NULL, h2)
  ∧ parse (Some 1%positive) (Some 2%positive) h = (Abort, h2)
  ∧ h2 !! 2%positive = Some (ErrCell 1).
Proof.
  split; [reflexivity|]. split; [reflexivity|]. split; [reflexivity|].
  split; [by vm_compute|]. split; [reflexivity|]. split; [reflexivity|].
  destruct (nmea_parse_message_assert Z 1 unit false
              (accepting_decoder Z tt) (accepting_decoder Z tt)
              (accepting_decoder Z tt) (accepting_decoder Z tt)
              (caller_heap unit "$GPRMC,081836,A" 0)
              (Some 1%positive) (Some 2%positive)
              (literal "$GPRMC,081836,A") 15 kNMEAMessageUnknown
              (<[2%positive := ErrCell 1]>
                 (<[3%positive := scratch (literal "$GPRMC,081836,A")]>
                    (caller_heap unit "$GPRMC,081836,A" 0))))
    as (Hrun & Herr & _); [reflexivity..|by vm_compute|reflexivity|reflexivity|].
  split; [exact Hrun|]. by apply Herr.
Defined.

Arguments msg_payload {_} _.
Arguments after_switch {_ _} NDEBUG t copy parsed _.

(** ** The dispatcher across decoders and builds *)

(** X9: only the decoder chosen by the type of the sentence takes part in
    a call: with the decoder for that type the same, the other three may be
    replaced by any others without changing the outcome or the heap.  For
    [kNMEAMessageUnknown] no decoder takes part. *)
Theorem nmea_parse_message_selected_decoder {E P : Type} (k : E) (N : bool)
    (g s v vt g' s' v' vt' : decoder E P)
    (h : gmap block (cell E P)) message outError t :
  nmea_get_message_type N message h = (Ok t, h) →
  (t = kNMEAMessageGGA → g = g') →
  (t = kNMEAMessageGSA → s = s') →
  (t = kNMEAMessageGSV → v = v') →
  (t = kNMEAMessageVTG → vt = vt') →
  nmea_parse_message k N g s v vt message outError h
    = nmea_parse_message k N g' s' v' vt' message outError h.
Proof.
  intros Ht Hg Hs Hv Hvt.
  destruct (nmea_get_message_type_Ok_deref E P N h message t h Ht) as [a Ha].
  destruct (strlen_arr a) as [n|] eqn:Hn; cycle 1.
  { rewrite !(nmea_parse_message_ill E k P N _ _ _ _ h message outError a Ha);
      [done|intros n; by rewrite Hn..]. }
  destruct (decide (Z.of_nat n + 2 ≤ INT_MAX)) as [Hlen|Hlen]; cycle 1.
  { rewrite !(nmea_parse_message_ill E k P N _ _ _ _ h message outError a Ha);
      [done|intros n'; rewrite Hn; by intros [= <-]..]. }
  destruct (nmea_parse_message_run E k P N g s v vt h message outError a n Ha Hn Hlen)
    as (t1 & Ht1 & ->).
  destruct (nmea_parse_message_run E k P N g' s' v' vt' h message outError a n Ha Hn Hlen)
    as (t2 & Ht2 & ->).
  assert (t1 = t) as -> by congruence. assert (t2 = t) as -> by congruence.
  destruct t; unfold parse_switch;
    [done|by rewrite Hg|by rewrite Hs|by rewrite Hv|by rewrite Hvt].
Qed.

(** X12: assertions change nothing on the way to a normal return: a call
    that returns in one build returns the same pointer and leaves the same
    heap in the other. *)
Theorem nmea_parse_message_build_independent {E P : Type} (k : E) (N1 N2 : bool)
    (g s v vt : decoder E P) (h : gmap block (cell E P)) message outError r h' :
  nmea_parse_message k N1 g s v vt message outError h = (Ok r, h') →
  nmea_parse_message k N2 g s v vt message outError h = (Ok r, h').
Proof.
  intros H.
  destruct (nmea_parse_message_Ok_wf E k P N1 g s v vt h message outError r h' H)
    as (a & n & Ha & Hn & Hlen).
  destruct (nmea_parse_message_Ok_inv E k P N1 g s v vt h message outError r h' H)
    as (a' & t & b & m & h2 & Ha' & Ht & _ & Hsw & -> & Hcopy & Hb & ->).
  assert (a' = a) as -> by congruence.
  destruct (nmea_parse_message_run E k P N2 g s v vt h message outError a n Ha Hn Hlen)
    as (t2 & Ht2 & ->).
  destruct (nmea_get_message_type_run E P N1 h message a Ha) as (u1 & Hu1 & Hr1);
    [right; eauto|].
  destruct (nmea_get_message_type_run E P N2 h message a Ha) as (u2 & Hu2 & Hr2);
    [right; eauto|].
  assert (t2 = t) as -> by congruence.
  rewrite (bind_Ok E P _ _ _ _ _ Hsw). by apply after_switch_run.
Qed.

(** ** The further statements at sample sentences *)

Lemma nmea_get_message_type_prefix_only_witness :
  let h1 := caller_heap unit "$GPGGA,123519" (0 : Z) in
  let h2 := caller_heap unit "$GPGGA,,,,," (7 : Z) in
  let a1 := literal "$GPGGA,123519" in
  let a2 := literal "$GPGGA,,,,," in
  deref h1 (Some 1%positive) = Some (Chars a1)
  ∧ deref h2 (Some 1%positive) = Some (Chars a2)
  ∧ is_Some (strlen_arr a1)
  ∧ is_Some (strlen_arr a2)
  ∧ take 6 (c_string a1) = take 6 (c_string a2)
  ∧ ∃ t, nmea_get_message_type false (Some 1%positive) h1 = (Ok t, h1)
         ∧ nmea_get_message_type false (Some 1%positive) h2 = (Ok t, h2).
Proof.
  intros h1 h2 a1 a2.
  split; [reflexivity|]. split; [reflexivity|]. split; [by eexists|].
  split; [by eexists|]. split; [reflexivity|].
  apply (nmea_get_message_type_prefix_only Z unit false h1 h2 _ _ a1 a2);
    [reflexivity|reflexivity|by eexists|by eexists|reflexivity].
Defined.

Lemma nmea_get_message_type_short_witness :
  let h := caller_heap unit "$GPGG" (0 : Z) in
  let a := literal "$GPGG" in
  deref h (Some 1%positive) = Some (Chars a)
  ∧ is_Some (strlen_arr a)
  ∧ (length (c_string a) < 6)%nat
  ∧ nmea_get_message_type false (Some 1%positive) h = (Ok kNMEAMessageUnknown, h).
Proof.
  intros h a.
  split; [reflexivity|]. split; [by eexists|]. split; [vm_compute; lia|].
  apply (nmea_get_message_type_short Z unit false h _ a);
    [reflexivity|by eexists|vm_compute; lia].
Defined.

Lemma nmea_get_message_type_sound_witness :
  let h := caller_heap unit "$GPGSA,A,3,04,05" (0 : Z) in
  let a := literal "$GPGSA,A,3,04,05" in
  deref h (Some 1%positive) = Some (Chars a)
  ∧ nmea_get_message_type false (Some 1%positive) h = (Ok kNMEAMessageGSA, h)
  ∧ kNMEAMessageGSA ≠ kNMEAMessageUnknown
  ∧ ∃ e lit, e ∈ type_map ∧ nmea e = Some lit ∧ type e = kNMEAMessageGSA
             ∧ take 6 (c_string a) = String.list_byte_of_string lit.
Proof.
  intros h a.
  split; [reflexivity|]. split; [reflexivity|]. split; [discriminate|].
  apply (nmea_get_message_type_sound Z unit false h (Some 1%positive) a _ h);
    [reflexivity|reflexivity|discriminate].
Defined.

Lemma nmea_parse_message_record_witness :
  let h := caller_heap unit "$GPGGA,123519,4807.038,N" (0 : Z) in
  let switch :=
    parse_switch 1
      (accepting_decoder Z tt) (rejecting_decoder unit 2)
      (rejecting_decoder unit 2) (rejecting_decoder unit 2) in
  let run :=
    nmea_parse_message 1 false
      (accepting_decoder Z tt) (rejecting_decoder unit 2)
      (rejecting_decoder unit 2) (rejecting_decoder unit 2)
      (Some 1%positive) (Some 2%positive) h in
  run = (Ok (Some 4%positive), run.2)
  ∧ ∃ a t b m h2,
      deref h (Some 1%positive) = Some (Chars a)
      ∧ switch t (Some (fresh (dom h))) (Some 2%positive)
          (<[fresh (dom h) := scratch a]> h) = (Ok (Some b), h2)
      ∧ Some 4%positive = Some b
      ∧ h2 !! b = Some (Msg m)
      ∧ run.2 !! b = Some (Msg (NmeaMessage t (msg_payload m))).
Proof.
  intros h switch run. split; [reflexivity|].
  apply (nmea_parse_message_record Z 1 unit false
           (accepting_decoder Z tt) (rejecting_decoder unit 2)
           (rejecting_decoder unit 2) (rejecting_decoder unit 2)
           h (Some 1%positive) (Some 2%positive) (Some 4%positive) run.2).
  reflexivity.
Defined.

Lemma nmea_parse_message_frees_copy_witness :
  let h := caller_heap unit "$GPGSV,3,1,11,03,03,111,00" (0 : Z) in
  let switch :=
    parse_switch 1
      (rejecting_decoder unit 2) (rejecting_decoder unit 2)
      (accepting_decoder Z tt) (rejecting_decoder unit 2) in
  let run :=
    nmea_parse_message 1 false
      (rejecting_decoder unit 2) (rejecting_decoder unit 2)
      (accepting_decoder Z tt) (rejecting_decoder unit 2)
      (Some 1%positive) (Some 2%positive) h in
  run = (Ok (Some 4%positive), run.2)
  ∧ ∃ a t b h2,
      deref h (Some 1%positive) = Some (Chars a)
      ∧ switch t (Some (fresh (dom h))) (Some 2%positive)
          (<[fresh (dom h) := scratch a]> h) = (Ok (Some b), h2)
      ∧ Some 4%positive = Some b
      ∧ h !! fresh (dom h) = None
      ∧ run.2 !! fresh (dom h) = None
      ∧ (∀ b', b' ≠ b → b' ≠ fresh (dom h) → run.2 !! b' = h2 !! b').
Proof.
  intros h switch run. split; [reflexivity|].
  apply (nmea_parse_message_frees_copy Z 1 unit false
           (rejecting_decoder unit 2) (rejecting_decoder unit 2)
           (accepting_decoder Z tt) (rejecting_decoder unit 2)
           h (Some 1%positive) (Some 2%positive) (Some 4%positive) run.2).
  reflexivity.
Defined.

Lemma nmea_parse_message_success_witness :
  let h := caller_heap unit "$GPGGA,123519" (0 : Z) in
  let a := literal "$GPGGA,123519" in
  let switch :=
    parse_switch 1
      (accepting_decoder Z tt) (rejecting_decoder unit 2)
      (rejecting_decoder unit 2) (rejecting_decoder unit 2) in
  let h2 : gmap block (cell Z unit) :=
    (switch kNMEAMessageGGA (Some (fresh (dom h))) NULL
       (<[fresh (dom h) := scratch a]> h)).2 in
  let m : nmea_message_t unit := NmeaMessage kNMEAMessageUnknown tt in
  deref h (Some 1%positive) = Some (Chars a)
  ∧ strlen_arr a = Some 13%nat
  ∧ Z.of_nat 13 + 2 ≤ INT_MAX
  ∧ nmea_get_message_type true (Some 1%positive) h = (Ok kNMEAMessageGGA, h)
  ∧ switch kNMEAMessageGGA (Some (fresh (dom h))) NULL
      (<[fresh (dom h) := scratch a]> h) = (Ok (Some 4%positive), h2)
  ∧ is_Some (h2 !! fresh (dom h))
  ∧ 4%positive ≠ fresh (dom h)
  ∧ h2 !! 4%positive = Some (Msg m)
  ∧ nmea_parse_message 1 true
      (accepting_decoder Z tt) (rejecting_decoder unit 2)
      (rejecting_decoder unit 2) (rejecting_decoder unit 2)
      (Some 1%positive) NULL h
    = (Ok (Some 4%positive),
       <[4%positive := Msg (NmeaMessage kNMEAMessageGGA tt)]>
         (delete (fresh (dom h)) h2)).
Proof.
  intros h a switch h2 m.
  split; [reflexivity|]. split; [reflexivity|]. split; [by vm_compute|].
  split; [reflexivity|]. split; [reflexivity|]. split; [by eexists|].
  split; [by vm_compute|]. split; [reflexivity|].
  apply (nmea_parse_message_success Z 1 unit true
           (accepting_decoder Z tt) (rejecting_decoder unit 2)
           (rejecting_decoder unit 2) (rejecting_decoder unit 2)
           h (Some 1%positive) NULL a 13 kNMEAMessageGGA 4%positive m h2);
    [reflexivity|reflexivity|by vm_compute|reflexivity|reflexivity|by eexists
    |by vm_compute|reflexivity].
Defined.

Lemma nmea_parse_message_unknown_witness :
  let h := caller_heap unit "$GPRMC,081836,A" (0 : Z) in
  let a := literal "$GPRMC,081836,A" in
  false = false
  ∧ deref h (Some 1%positive) = Some (Chars a)
  ∧ strlen_arr a = Some 15%nat
  ∧ Z.of_nat 15 + 2 ≤ INT_MAX
  ∧ (∀ e lit, e ∈ type_map → nmea e = Some lit →
       take 6 (c_string a) ≠ String.list_byte_of_string lit)
  ∧ (Some 2%positive = NULL ∨ ∃ e0, deref h (Some 2%positive) = Some (ErrCell e0))
  ∧ nmea_parse_message 1 false
      (accepting_decoder Z tt) (accepting_decoder Z tt)
      (accepting_decoder Z tt) (accepting_decoder Z tt)
      (Some 1%positive) (Some 2%positive) h
    = (Abort, <[2%positive := ErrCell 1]> (<[fresh (dom h) := scratch a]> h)).
Proof.
  intros h a.
  assert (∀ e lit, e ∈ type_map → nmea e = Some lit →
            take 6 (c_string a) ≠ String.list_byte_of_string lit) as Hno.
  { unfold type_map. intros e lit He Hlit.
    repeat (apply elem_of_cons in He as [->|He]);
      try (by apply elem_of_nil in He); simpl in Hlit; by simplify_eq. }
  split; [reflexivity|]. split; [reflexivity|]. split; [reflexivity|].
  split; [by vm_compute|]. split; [exact Hno|]. split; [right; by eexists|].
  apply (nmea_parse_message_unknown Z 1 unit false
           (accepting_decoder Z tt) (accepting_decoder Z tt)
           (accepting_decoder Z tt) (accepting_decoder Z tt)
           h (Some 1%positive) (Some 2%positive) a 15);
    [reflexivity|reflexivity|reflexivity|by vm_compute|exact Hno|right; by eexists].
Defined.

Lemma nmea_parse_message_selected_decoder_witness :
  let h := caller_heap unit "$GPGGA,123519" (0 : Z) in
  let acc : decoder Z unit := accepting_decoder Z tt in
  let rej : decoder Z unit := rejecting_decoder unit 2 in
  nmea_get_message_type false (Some 1%positive) h = (Ok kNMEAMessageGGA, h)
  ∧ (kNMEAMessageGGA = kNMEAMessageGGA → acc = acc)
  ∧ (kNMEAMessageGGA = kNMEAMessageGSA → rej = acc)
  ∧ (kNMEAMessageGGA = kNMEAMessageGSV → rej = acc)
  ∧ (kNMEAMessageGGA = kNMEAMessageVTG → rej = acc)
  ∧ nmea_parse_message 1 false acc rej rej rej (Some 1%positive) (Some 2%positive) h
    = nmea_parse_message 1 false acc acc acc acc (Some 1%positive) (Some 2%positive) h.
Proof.
  intros h acc rej.
  split; [reflexivity|]. split; [reflexivity|]. split; [discriminate|].
  split; [discriminate|]. split; [discriminate|].
  apply (nmea_parse_message_selected_decoder 1 false acc rej rej rej acc acc acc acc
           h (Some 1%positive) (Some 2%positive) kNMEAMessageGGA);
    [reflexivity|reflexivity|discriminate..].
Defined.

Lemma nmea_parse_message_decoder_input_witness :
  let h := caller_heap unit "$GPGSA,A,3" (0 : Z) in
  let a := literal "$GPGSA,A,3" in
  let parse :=
    nmea_parse_message 1 false
      (accepting_decoder Z tt) (rejecting_decoder unit 2)
      (accepting_decoder Z tt) (accepting_decoder Z tt) in
  deref h (Some 1%positive) = Some (Chars a)
  ∧ strlen_arr a = Some 10%nat
  ∧ Z.of_nat 10 + 2 ≤ INT_MAX
  ∧ ∃ t w,
      nmea_get_message_type false (Some 1%positive) h = (Ok t, h)
      ∧ h !! fresh (dom h) = None
      ∧ length w = (10 + 2)%nat
      ∧ strlen_arr w = Some 10%nat
      ∧ c_string w = c_string a
      ∧ parse (Some 1%positive) (Some 2%positive) h =
          (parse_switch 1
             (accepting_decoder Z tt) (rejecting_decoder unit 2)
             (accepting_decoder Z tt) (accepting_decoder Z tt)
             t (Some (fresh (dom h))) (Some 2%positive)
             ≫= after_switch false t (Some (fresh (dom h))))
            (<[fresh (dom h) := Chars w]> h).
Proof.
  intros h a parse.
  split; [reflexivity|]. split; [reflexivity|]. split; [by vm_compute|].
  apply (nmea_parse_message_decoder_input Z 1 unit false
           (accepting_decoder Z tt) (rejecting_decoder unit 2)
           (accepting_decoder Z tt) (accepting_decoder Z tt)
           h (Some 1%positive) (Some 2%positive) a 10);
    [reflexivity|reflexivity|by vm_compute].
Defined.

Lemma nmea_parse_message_NDEBUG_null_write_witness :
  let h := caller_heap unit "$GPGSA,A,3" (0 : Z) in
  let a := literal "$GPGSA,A,3" in
  let switch :=
    parse_switch 1
      (accepting_decoder Z tt) (rejecting_decoder unit 2)
      (accepting_decoder Z tt) (accepting_decoder Z tt) in
  let h2 : gmap block (cell Z unit) :=
    <[2%positive := ErrCell 2]> (<[fresh (dom h) := scratch a]> h) in
  true = true
  ∧ deref h (Some 1%positive) = Some (Chars a)
  ∧ strlen_arr a = Some 10%nat
  ∧ Z.of_nat 10 + 2 ≤ INT_MAX
  ∧ nmea_get_message_type true (Some 1%positive) h = (Ok kNMEAMessageGSA, h)
  ∧ switch kNMEAMessageGSA (Some (fresh (dom h))) (Some 2%positive)
      (<[fresh (dom h) := scratch a]> h) = (Ok NULL, h2)
  ∧ (nmea_parse_message 1 true
       (accepting_decoder Z tt) (rejecting_decoder unit 2)
       (accepting_decoder Z tt) (accepting_decoder Z tt)
       (Some 1%positive) (Some 2%positive) h).1 = Undef.
Proof.
  intros h a switch h2.
  split; [reflexivity|]. split; [reflexivity|]. split; [reflexivity|].
  split; [by vm_compute|]. split; [reflexivity|]. split; [reflexivity|].
  apply (nmea_parse_message_NDEBUG_null_write Z 1 unit true
           (accepting_decoder Z tt) (rejecting_decoder unit 2)
           (accepting_decoder Z tt) (accepting_decoder Z tt)
           h (Some 1%positive) (Some 2%positive) a 10 kNMEAMessageGSA h2);
    [reflexivity|reflexivity|reflexivity|by vm_compute|reflexivity|reflexivity].
Defined.

Lemma nmea_parse_message_build_independent_witness :
  let h := caller_heap unit "$GPGGA,123519" (0 : Z) in
  let parse NDEBUG :=
    nmea_parse_message 1 NDEBUG
      (accepting_decoder Z tt) (rejecting_decoder unit 2)
      (rejecting_decoder unit 2) (rejecting_decoder unit 2)
      (Some 1%positive) (Some 2%positive) h in
  parse true = (Ok (Some 4%positive), (parse true).2)
  ∧ parse false = (Ok (Some 4%positive), (parse true).2).
Proof.
  intros h parse. split; [reflexivity|].
  apply (nmea_parse_message_build_independent 1 true false
           (accepting_decoder Z tt) (rejecting_decoder unit 2)
           (rejecting_decoder unit 2) (rejecting_decoder unit 2)
           h (Some 1%positive) (Some 2%positive)).
  reflexivity.
Defined.

Lemma nmea_parse_message_registered_only_witness :
  let h := caller_heap unit "$GPVTF,054.7,T" (0 : Z) in
  let run :=
    nmea_parse_message 1 false
      (rejecting_decoder unit 2) (rejecting_decoder unit 2)
      (rejecting_decoder unit 2) (accepting_decoder Z tt)
      (Some 1%positive) NULL h in
  run = (Ok (Some 4%positive), run.2)
  ∧ ∃ a e lit b m,
      deref h (Some 1%positive) = Some (Chars a)
      ∧ e ∈ type_map ∧ nmea e = Some lit
      ∧ take 6 (c_string a) = String.list_byte_of_string lit
      ∧ Some 4%positive = Some b ∧ run.2 !! b = Some (Msg m)
      ∧ msg_type m = type e.
Proof.
  intros h run. split; [reflexivity|].
  apply (nmea_parse_message_registered_only Z 1 unit false
           (rejecting_decoder unit 2) (rejecting_decoder unit 2)
           (rejecting_decoder unit 2) (accepting_decoder Z tt)
           h (Some 1%positive) NULL (Some 4%positive) run.2).
  reflexivity.
Defined.
